(** * Escuelas México: the filter, search, pagination and export pipeline

    A shallow embedding of [main_escuelas_mx.py], a Streamlit script that is
    re-run from top to bottom on every interaction.  The loaded dataset and
    the values the widgets hand back are the inputs of one run; the map cache
    of [st.cache_data] is the only state that survives a run.

    Conventions.  A Python [str] is modelled by the bytes of its UTF-8
    encoding ([String.string]): byte-wise lexicographic order is code-point
    order, and substring search on the bytes is substring search on the
    characters.  Case folding is carried out on the ASCII letters.  Python
    integers are [Z]; coordinates are rationals. *)

From Stdlib Require Import ZArith QArith Qround List String Ascii Bool Lia.
From Stdlib Require Import Sorted.
Import ListNotations.

Local Open Scope string_scope.
Local Open Scope Z_scope.

(* ================================================================== *)
(** ** Python: outcomes, truthiness, [+], [sorted], [html.escape] *)
(* ================================================================== *)

Module Py.

Inductive exn : Type :=
| TypeError      (* operands of the wrong type *)
| ReError.       (* [re.error]: the pattern does not compile *)

(** What evaluating an expression gives: a value, an exception, or
    [Beyond] when the expression leaves the part of a library that this
    development models (see [Pd.re_compile]). *)
Inductive outcome (A : Type) : Type :=
| Ok (a : A)
| Raise (e : exn)
| Beyond.

Arguments Ok {A} a.
Arguments Raise {A} e.
Arguments Beyond {A}.

Definition bind {A B} (m : outcome A) (k : A -> outcome B) : outcome B :=
  match m with
  | Ok a => k a
  | Raise e => Raise e
  | Beyond => Beyond
  end.

Definition len {A} (l : list A) : Z := Z.of_nat (List.length l).

(** The objects that line 233 adds up: a [str] or a [list] of [str]. *)
Inductive value : Type :=
| VStr (s : string)
| VList (l : list string).

(** [a + b]: concatenation of two [str] or of two [list]; Python raises
    [TypeError] for a [str] and a [list]. *)
Definition add (a b : value) : outcome value :=
  match a, b with
  | VStr s, VStr t => Ok (VStr (s ++ t))
  | VList l, VList m => Ok (VList (l ++ m))
  | VStr _, VList _ => Raise TypeError
  | VList _, VStr _ => Raise TypeError
  end.

(** Iterating a value: the items of a list, the characters of a string. *)
Definition items (v : value) : list string :=
  match v with
  | VList l => l
  | VStr s => map (fun c => String c EmptyString) (list_ascii_of_string s)
  end.

(** [if x:] for [x] a [str] or [None]. *)
Definition truthy (x : option string) : bool :=
  match x with
  | None => false
  | Some s => negb (String.eqb s EmptyString)
  end.

(** [sorted(l)] on strings. *)
Fixpoint insert (s : string) (l : list string) : list string :=
  match l with
  | [] => [s]
  | t :: l' => if String.leb s t then s :: l else t :: insert s l'
  end.

Definition sorted (l : list string) : list string :=
  fold_right insert [] l.

Definition quote_char : ascii := ascii_of_nat 34.
Definition newline : ascii := ascii_of_nat 10.

(** [html.escape(s)] with its default [quote=True]. *)
Definition escape_char (c : ascii) : string :=
  if Ascii.eqb c "&" then "&amp;"
  else if Ascii.eqb c "<" then "&lt;"
  else if Ascii.eqb c ">" then "&gt;"
  else if Ascii.eqb c quote_char then "&quot;"
  else if Ascii.eqb c "'" then "&#x27;"
  else String c EmptyString.

Definition escape (s : string) : string :=
  String.concat EmptyString (map escape_char (list_ascii_of_string s)).

End Py.

Import Py.

Notation "x <- m ;; k" := (Py.bind m (fun x => k))
  (at level 61, m at next level, right associativity).

(* ================================================================== *)
(** ** The dataset *)
(* ================================================================== *)

(** A cell of an attribute column: text, or one of the two missing values
    that the loaders produce ([None] for a null, [NaN] for an absent key). *)
Inductive cell : Type :=
| Str (s : string)
| PyNone
| NaN.

Record point : Type := { x : Q; y : Q }.

(** One row of the GeoDataFrame. *)
Record school : Type := {
  name : cell;
  nombre_entidad : cell;
  nombre_municipio : cell;
  nombre_localidad : cell;
  nombre_de_centro_de_trabajo : cell;
  geometry : point
}.

(** The column constants of section 3 of the script. *)
Inductive column : Type :=
| CENTRO_DE_TRABAJO_FIELD
| DEPARTAMENTO_FIELD
| MUNICIPIO_FIELD
| NOMBRE_DE_CENTRO_DE_TRABAJO
| NOMBRE_LOCALIDAD.

Definition col (c : column) (r : school) : cell :=
  match c with
  | CENTRO_DE_TRABAJO_FIELD => name r
  | DEPARTAMENTO_FIELD => nombre_entidad r
  | MUNICIPIO_FIELD => nombre_municipio r
  | NOMBRE_DE_CENTRO_DE_TRABAJO => nombre_de_centro_de_trabajo r
  | NOMBRE_LOCALIDAD => nombre_localidad r
  end.

(* ================================================================== *)
(** ** pandas *)
(* ================================================================== *)

Module Pd.

(** [series.dropna()] *)
Fixpoint dropna (s : list cell) : list string :=
  match s with
  | [] => []
  | Str v :: s' => v :: dropna s'
  | _ :: s' => dropna s'
  end.

(** [series.unique()]: the distinct values in order of first appearance. *)
Fixpoint unique_onto (seen : list string) (s : list string) : list string :=
  match s with
  | [] => []
  | v :: s' =>
      if existsb (String.eqb v) seen then unique_onto seen s'
      else v :: unique_onto (v :: seen) s'
  end.

Definition unique (s : list string) : list string := unique_onto [] s.

(** [cell == value]: a missing value compares unequal to everything. *)
Definition eq_value (c : cell) (v : string) : bool :=
  match c with
  | Str s => String.eqb s v
  | PyNone | NaN => false
  end.

(** [df.head(n)] *)
Definition head {A} (n : Z) (df : list A) : list A :=
  if 0 <=? n then firstn (Z.to_nat n) df
  else firstn (Z.to_nat (len df + n)) df.

(** A bound of a positional slice, as Python normalises it. *)
Definition slice_bound (n i : Z) : Z :=
  if i <? 0 then Z.max 0 (n + i) else Z.min i n.

(** [df.iloc[start:stop]] *)
Definition iloc {A} (df : list A) (start stop : Z) : list A :=
  let a := slice_bound (len df) start in
  let b := slice_bound (len df) stop in
  firstn (Z.to_nat (b - a)) (skipn (Z.to_nat a) df).

(** [str(v)] on a cell, and [astype(str)] as pandas 2 carries it out: the
    missing values become the texts [None] and [nan]. *)
Definition astype_str (c : cell) : string :=
  match c with
  | Str s => s
  | PyNone => "None"
  | NaN => "nan"
  end.

(** *** [Series.str.contains(pat, case=False, na=False)]

    [regex] keeps its default [True]: the term is a regular expression
    searched with [re.IGNORECASE].  The modelled fragment of the pattern
    language is: ordinary characters, which stand for themselves, and
    [.], which stands for any character but a newline.  A pattern with
    another special character is [Beyond]. *)

Definition re_special (c : ascii) : bool :=
  existsb (Ascii.eqb c) (list_ascii_of_string ".^$*+?{}[]\|()").

Inductive atom : Type :=
| Lit (c : ascii)
| AnyChar.

Fixpoint re_compile_list (pat : list ascii) : outcome (list atom) :=
  match pat with
  | [] => Ok []
  | c :: pat' =>
      if Ascii.eqb c "." then
        p <- re_compile_list pat' ;; Ok (AnyChar :: p)
      else if re_special c then Beyond
      else p <- re_compile_list pat' ;; Ok (Lit c :: p)
  end.

Definition re_compile (pat : string) : outcome (list atom) :=
  re_compile_list (list_ascii_of_string pat).

(** The lower case of an ASCII letter; other bytes are left as they
    are. *)
Definition lower (c : ascii) : ascii :=
  let n := N_of_ascii c in
  if ((65 <=? n) && (n <=? 90))%N then ascii_of_N (n + 32) else c.

(** A byte that continues a character begun by an earlier byte. *)
Definition continuation (c : ascii) : bool :=
  let n := N_of_ascii c in ((128 <=? n) && (n <? 192))%N.

Fixpoint skip_continuation (s : list ascii) : list ascii :=
  match s with
  | [] => []
  | c :: s' => if continuation c then skip_continuation s' else s
  end.

(** The pattern matches a prefix of the text.  A literal is compared
    ignoring case; [.] takes one whole character. *)
Fixpoint match_here (p : list atom) (s : list ascii) {struct p} : bool :=
  match p, s with
  | [], _ => true
  | _ :: _, [] => false
  | Lit d :: p', c :: s' =>
      Ascii.eqb (lower d) (lower c) && match_here p' s'
  | AnyChar :: p', c :: s' =>
      negb (Ascii.eqb c newline) && negb (continuation c)
      && match_here p' (skip_continuation s')
  end.

(** [re.search]: the pattern matches at some position of the text. *)
Fixpoint re_search (p : list atom) (s : list ascii) : bool :=
  match_here p s ||
  match s with
  | [] => false
  | _ :: s' => re_search p s'
  end.

(** One element of [x.str.contains(pat, case=False, na=False)]; the
    column went through [astype(str)], so it holds no missing value and
    [na=False] has nothing to act on. *)
Definition str_contains (pat : string) (text : string) : outcome bool :=
  p <- re_compile pat ;; Ok (re_search p (list_ascii_of_string text)).

(** *** [DataFrame.to_csv(index=False)]: minimal quoting, comma
    separated, a missing value written as the empty field, lines ended
    by the line separator of the platform (POSIX here). *)

Definition linesep : string := String newline EmptyString.

Definition needs_quoting (c : ascii) : bool :=
  Ascii.eqb c "," || Ascii.eqb c quote_char || Ascii.eqb c newline.

Definition csv_char (c : ascii) : string :=
  if Ascii.eqb c quote_char
  then String quote_char (String quote_char EmptyString)
  else String c EmptyString.

Definition csv_field (s : string) : string :=
  if existsb needs_quoting (list_ascii_of_string s)
  then String quote_char
         (String.concat EmptyString (map csv_char (list_ascii_of_string s))
          ++ String quote_char EmptyString)
  else s.

Definition na_rep (c : cell) : string :=
  match c with
  | Str s => s
  | PyNone | NaN => EmptyString
  end.

Definition csv_line (fields : list string) : string :=
  String.concat "," (map csv_field fields) ++ linesep.

Definition to_csv (columns : list string) (rows : list (list cell)) : string :=
  csv_line columns ++ String.concat EmptyString (map (fun r => csv_line (map na_rep r)) rows).

End Pd.

(* ================================================================== *)
(** ** Streamlit: widgets and [st.cache_data] *)
(* ================================================================== *)

Module St.

(** [st.selectbox(label, options, index=0)]: the option the user picked,
    [None] when there is nothing to pick. *)
Definition selectbox {A} (options : list A) (choice : nat) : option A :=
  nth_error options choice.

(** [st.number_input(min_value=.., max_value=.., value=..)]: the widget
    hands the script the number asked for when it lies within the bounds;
    a number outside them is not taken, and the widget hands back its
    default [value]. *)
Definition number_input (min_value max_value value typed : Z) : Z :=
  if (min_value <=? typed) && (typed <=? max_value) then typed else value.

(** The memo table of a function decorated with [st.cache_data]: the key
    is built from the arguments whose name does not start with an
    underscore. *)
Section Cache.
Variables K V : Type.
Variable key_eqb : K -> K -> bool.

Definition memo : Type := list (K * V).

Fixpoint lookup (k : K) (c : memo) : option V :=
  match c with
  | [] => None
  | (k', v) :: c' => if key_eqb k k' then Some v else lookup k c'
  end.

Definition cached (k : K) (compute : unit -> V) (c : memo) : V * memo :=
  match lookup k c with
  | Some v => (v, c)
  | None => let v := compute tt in (v, (k, v) :: c)
  end.
End Cache.

Arguments lookup {K V} key_eqb k c.
Arguments cached {K V} key_eqb k compute c.

End St.

(* ================================================================== *)
(** ** Section 0 of the script: language *)
(* ================================================================== *)

Inductive language : Type := en | es.

Module Key.
Inductive t : Type :=
| centro_trabajo_codigo
| departamento
| municipio
| select_first
| name
| locality
| click_to_copy.
End Key.

Definition TRANSLATIONS (lang : language) (k : Key.t) : string :=
  match lang, k with
  | en, Key.centro_trabajo_codigo => "Working center code"
  | en, Key.departamento => "State"
  | en, Key.municipio => "Municipality"
  | en, Key.select_first => "Select State first"
  | en, Key.name => "School Name"
  | en, Key.locality => "Locality"
  | en, Key.click_to_copy => "Click to copy code"
  | es, Key.centro_trabajo_codigo => "Código centro de trabajo"
  | es, Key.departamento => "Entidad"
  | es, Key.municipio => "Municipio"
  | es, Key.select_first => "Selecciona Entidad primero"
  | es, Key.name => "Nombre de Escuela"
  | es, Key.locality => "Localidad"
  | es, Key.click_to_copy => "Clic para copiar código"
  end.

(* ================================================================== *)
(** ** Section 2 of the script: the map *)
(* ================================================================== *)

(** A marker of the cluster: its place, the three texts put into the popup
    (escaped code, escaped school name, label of the copy button) and the
    escaped code of the tooltip. *)
Record marker : Type := {
  location : Q * Q;
  popup_code : string;
  popup_school_name : string;
  popup_button : string;
  tooltip : string
}.

Record folium_map : Type := {
  map_location : Q * Q;
  zoom_start : Z;
  copy_alert : string;
  cluster : list marker
}.

Definition create_map_marker (click_to_copy_text : string) (row : school) : marker :=
  let lat := y (geometry row) in
  let lon := x (geometry row) in
  let code := Pd.astype_str (name row) in
  let school_name := Pd.astype_str (nombre_de_centro_de_trabajo row) in
  let code_escaped := Py.escape code in
  let school_name_escaped := Py.escape school_name in
  {| location := (lat, lon);
     popup_code := code_escaped;
     popup_school_name := school_name_escaped;
     popup_button := click_to_copy_text;
     tooltip := code_escaped |}.

(** The body of [create_map]. *)
Definition create_map_body (_gdf : list school) (center_lat center_lon : Q)
    (click_to_copy_text : string) : folium_map :=
  {| map_location := (center_lat, center_lon);
     zoom_start := 8;
     copy_alert := click_to_copy_text;
     cluster := map (create_map_marker click_to_copy_text) _gdf |}.

(** The cache key of [create_map]: [_gdf] is left out of it. *)
Definition map_key : Type := Q * Q * string.

Definition map_key_eqb (k k' : map_key) : bool :=
  let '(lat, lon, text) := k in
  let '(lat', lon', text') := k' in
  Qeq_bool lat lat' && Qeq_bool lon lon' && String.eqb text text'.

Definition map_cache : Type := St.memo map_key folium_map.

(** [create_map], as decorated with [@st.cache_data]. *)
Definition create_map (_gdf : list school) (center_lat center_lon : Q)
    (click_to_copy_text : string) (cache : map_cache) : folium_map * map_cache :=
  St.cached map_key_eqb (center_lat, center_lon, click_to_copy_text)
    (fun _ => create_map_body _gdf center_lat center_lon click_to_copy_text)
    cache.

(* ================================================================== *)
(** ** Sections 3 to 5 of the script *)
(* ================================================================== *)

(** The allowed values of the rows-per-page selectbox. *)
Inductive rows_option : Type := Rows50 | Rows100 | Rows200 | Rows500.

Definition rows_value (o : rows_option) : Z :=
  match o with
  | Rows50 => 50
  | Rows100 => 100
  | Rows200 => 200
  | Rows500 => 500
  end.

(** What the widgets hand to one run of the script. *)
Record widgets : Type := {
  lang : language;
  state_choice : nat;          (* position picked in the state selectbox *)
  municipio_choice : nat;      (* position picked in the municipality selectbox *)
  search_term : string;
  rows_per_page : rows_option;
  page_typed : Z               (* number asked of the page input *)
}.

(** *** Section 3: sidebar filters *)

Definition departamentos (gdf : list school) : list string :=
  Py.sorted (Pd.unique (Pd.dropna (map nombre_entidad gdf))).

Definition admin1 (gdf : list school) (ui : widgets) : option string :=
  St.selectbox (departamentos gdf) (state_choice ui).

(** [gdf[gdf[DEPARTAMENTO_FIELD] == admin1]] *)
Definition rows_of_state (gdf : list school) (admin1 : string) : list school :=
  filter (fun r => Pd.eq_value (col DEPARTAMENTO_FIELD r) admin1) gdf.

(** [gdf[(gdf[MUNICIPIO_FIELD] == admin2) & (gdf[DEPARTAMENTO_FIELD] == admin1)]] *)
Definition rows_of_municipio (gdf : list school) (admin1 admin2 : string) : list school :=
  filter (fun r => Pd.eq_value (col MUNICIPIO_FIELD r) admin2
                   && Pd.eq_value (col DEPARTAMENTO_FIELD r) admin1) gdf.

(** The right operand of line 233. *)
Definition municipio_values (gdf : list school) (admin1 : string) : list string :=
  Py.sorted (Pd.unique (Pd.dropna (map (col MUNICIPIO_FIELD) (rows_of_state gdf admin1)))).

(** Line 233: [municipios], the empty [str] plus the sorted [list]. *)
Definition municipios (gdf : list school) (admin1 : string) : outcome value :=
  Py.add (VStr EmptyString) (VList (municipio_values gdf admin1)).

(** The value of a selectbox when it passes the [if] test on it. *)
Definition chosen (v : option string) : option string :=
  if Py.truthy v then v else None.

(** Lines 229 to 244: [filtered_for_map] as the sidebar leaves it. *)
Definition sidebar_filters (gdf : list school) (ui : widgets) : outcome (list school) :=
  match chosen (admin1 gdf ui) with
  | Some admin1 =>
      municipios <- municipios gdf admin1 ;;
      let admin2 := St.selectbox (Py.items municipios) (municipio_choice ui) in
      match chosen admin2 with
      | Some admin2 => Ok (rows_of_municipio gdf admin1 admin2)
      | None => Ok (rows_of_state gdf admin1)
      end
  | None => Ok gdf
  end.

(** Lines 250 to 252: the warning flag and the limited [filtered_for_map]. *)
Definition limit_points (filtered_for_map : list school) : bool * list school :=
  if len filtered_for_map >? 10000
  then (true, Pd.head 10000 filtered_for_map)
  else (false, filtered_for_map).

(** *** Section 4: the map *)

(** [series.mean()], in exact arithmetic, every sum in lowest terms. *)
Definition mean (l : list Q) : Q :=
  Qred (fold_right (fun q acc => Qred (q + acc)) 0%Q l / inject_Z (len l)).

(** Lines 260 to 264: [(center_lat, center_lon)]. *)
Definition center (filtered_for_map : list school) : Q * Q :=
  match filtered_for_map with
  | _ :: _ =>
      (mean (map (fun r => y (geometry r)) filtered_for_map),
       mean (map (fun r => x (geometry r)) filtered_for_map))
  | [] => (236345 # 10000, - 1025528 # 10000)%Q
  end.

(** *** Section 5: the table *)

Definition display_columns : list column :=
  [CENTRO_DE_TRABAJO_FIELD; DEPARTAMENTO_FIELD; MUNICIPIO_FIELD;
   NOMBRE_LOCALIDAD; NOMBRE_DE_CENTRO_DE_TRABAJO].

Definition column_display_names (lang : language) (c : column) : string :=
  match c with
  | CENTRO_DE_TRABAJO_FIELD => TRANSLATIONS lang Key.centro_trabajo_codigo
  | DEPARTAMENTO_FIELD => TRANSLATIONS lang Key.departamento
  | MUNICIPIO_FIELD => TRANSLATIONS lang Key.municipio
  | NOMBRE_LOCALIDAD => TRANSLATIONS lang Key.locality
  | NOMBRE_DE_CENTRO_DE_TRABAJO => TRANSLATIONS lang Key.name
  end.

(** A row of [table_df]: the cells of the display columns, in their order. *)
Definition table_row : Type := list cell.

(** [table_df[display_columns]] *)
Definition select_columns (df : list school) : list table_row :=
  map (fun r => map (fun c => col c r) display_columns) df.

Fixpoint map_outcome {A B} (f : A -> outcome B) (l : list A) : outcome (list B) :=
  match l with
  | [] => Ok []
  | a :: l' => b <- f a ;; bs <- map_outcome f l' ;; Ok (b :: bs)
  end.

(** [df[mask]] *)
Definition boolean_index {A} (df : list A) (mask : list bool) : list A :=
  map fst (filter snd (combine df mask)).

(** Line 302: [astype(str)], [str.contains] on every cell, [any(axis=1)]. *)
Definition mask (table_df : list table_row) (search_term : string) : outcome (list bool) :=
  let texts := map (map Pd.astype_str) table_df in
  hits <- map_outcome (map_outcome (Pd.str_contains search_term)) texts ;;
  Ok (map (existsb (fun b => b)) hits).

(** Lines 301 to 304. *)
Definition search (table_df : list table_row) (search_term : string) : outcome (list table_row) :=
  if negb (String.eqb search_term EmptyString) then
    mask <- mask table_df search_term ;; Ok (boolean_index table_df mask)
  else Ok table_df.

(** Line 314. *)
Definition total_pages {A} (table_df : list A) (rows_per_page : Z) : Z :=
  Z.max 1 ((len table_df - 1) / rows_per_page + 1).

(** Lines 315 to 321. *)
Definition page {A} (table_df : list A) (rows_per_page : Z) (typed : Z) : Z :=
  St.number_input 1 (total_pages table_df rows_per_page) 1 typed.

(** Lines 323 to 325, for a given [page]. *)
Definition page_rows {A} (table_df : list A) (rows_per_page : Z) (page : Z) : list A :=
  let start_idx := (page - 1) * rows_per_page in
  let end_idx := Z.min (start_idx + rows_per_page) (len table_df) in
  Pd.iloc table_df start_idx end_idx.

(** Lines 314 to 325: [paginated_df]. *)
Definition paginated_df {A} (table_df : list A) (rows_per_page : Z) (typed : Z) : list A :=
  page_rows table_df rows_per_page (page table_df rows_per_page typed).

Definition header (lang : language) : list string :=
  map (column_display_names lang) display_columns.

(** What one run puts on the screen and behind the download buttons. *)
Record screen : Type := {
  points_on_map : Z;               (* sidebar count, line 247 *)
  performance_warning : bool;      (* line 251 *)
  map_info : Z;                    (* points of the map, line 266 *)
  shown_map : folium_map;
  total_records : Z;               (* line 299 *)
  table_df : list table_row;       (* after the search *)
  shown_total_pages : Z;
  shown_page : Z;
  shown_rows : list table_row;     (* [paginated_df] *)
  csv_filtered : string;
  csv_page : string
}.

(** Lines 247 to 354, from the [filtered_for_map] of the sidebar on. *)
Definition render (found : list school) (ui : widgets) (cache : map_cache)
  : outcome screen * map_cache :=
  let '(warned, filtered_for_map) := limit_points found in
  let '(center_lat, center_lon) := center filtered_for_map in
  let '(m, cache) :=
    create_map filtered_for_map center_lat center_lon
      (TRANSLATIONS (lang ui) Key.click_to_copy) cache in
  let table_df := select_columns filtered_for_map in
  (searched <- search table_df (search_term ui) ;;
   let rows := rows_value (rows_per_page ui) in
   let paginated := paginated_df searched rows (page_typed ui) in
   Ok {| points_on_map := len found;
         performance_warning := warned;
         map_info := len filtered_for_map;
         shown_map := m;
         total_records := len table_df;
         table_df := searched;
         shown_total_pages := total_pages searched rows;
         shown_page := page searched rows (page_typed ui);
         shown_rows := paginated;
         csv_filtered := Pd.to_csv (header (lang ui)) searched;
         csv_page := Pd.to_csv (header (lang ui)) paginated |},
   cache).

(** One run of the script on the loaded dataset. *)
Definition script (gdf : list school) (ui : widgets) (cache : map_cache)
  : outcome screen * map_cache :=
  match sidebar_filters gdf ui with
  | Ok found => render found ui cache
  | Raise e => (Raise e, cache)
  | Beyond => (Beyond, cache)
  end.

(* ================================================================== *)
(** ** Vocabulary of the statements *)
(* ================================================================== *)

Definition characters (s : string) : list ascii := list_ascii_of_string s.

Definition fold_case (s : string) : list ascii := map Pd.lower (characters s).










(** [l] is [m] with some elements left out, the others in their order. *)
Inductive subseq {A : Type} : list A -> list A -> Prop :=
| subseq_nil : subseq [] []
| subseq_skip : forall a l m, subseq l m -> subseq l (a :: m)
| subseq_keep : forall a l m, subseq l m -> subseq (a :: l) (a :: m).

(** Strictly before, in the order of [sorted]. *)
Definition before (s t : string) : Prop := String.ltb s t = true.

(** The characters that open or close a tag or an attribute value. *)
Definition markup (c : ascii) : bool :=
  Ascii.eqb c "<" || Ascii.eqb c ">" || Ascii.eqb c quote_char || Ascii.eqb c "'".

(** The five characters that [html.escape] rewrites. *)
Definition html_special (c : ascii) : bool := Ascii.eqb c "&" || markup c.

Definition free_of_markup (s : string) : Prop :=
  Forall (fun c => markup c = false) (characters s).

(** A term of the modelled part of the pattern language: ordinary
    characters and dots. *)
Definition modelled (term : string) : Prop :=
  forall c, In c (characters term) -> c = "."%char \/ Pd.re_special c = false.

(** The rows of an export, without its header line. *)
Definition csv_body (rows : list table_row) : string :=
  String.concat EmptyString (map (fun r => Pd.csv_line (map Pd.na_rep r)) rows).

(** A pattern atom with its letter in lower case. *)
Definition fold_atom (a : Pd.atom) : Pd.atom :=
  match a with
  | Pd.Lit c => Pd.Lit (Pd.lower c)
  | Pd.AnyChar => Pd.AnyChar
  end.

(** Every map kept in the cache has at most 10,000 markers. *)
Definition bounded_cache (cache : map_cache) : Prop :=
  Forall (fun entry => len (cluster (snd entry)) <= 10000) cache.

(* ================================================================== *)
(** ** Sample data *)
(* ================================================================== *)

(** The widgets as a first run finds them: Spanish, first state, first
    municipality, no search term, 100 rows per page, page 1. *)
Definition defaults : widgets :=
  {| lang := es;
     state_choice := 0;
     municipio_choice := 0;
     search_term := EmptyString;
     rows_per_page := Rows100;
     page_typed := 1 |}.

Definition juchitan : point := {| x := - 950203 # 10000; y := 164354 # 10000 |}.

Definition primaria : school :=
  {| name := Str "20DPR0001A";
     nombre_entidad := Str "Oaxaca";
     nombre_municipio := Str "Juchitan";
     nombre_localidad := Str "Centro";
     nombre_de_centro_de_trabajo := Str "Benito Juarez";
     geometry := juchitan |}.

(** A school of the same place under another code. *)
Definition secundaria : school :=
  {| name := Str "20DES0002B";
     nombre_entidad := Str "Oaxaca";
     nombre_municipio := Str "Juchitan";
     nombre_localidad := Str "Centro";
     nombre_de_centro_de_trabajo := Str "Tecnica 5";
     geometry := juchitan |}.

(** A record with no attribute at all. *)
Definition blank : school :=
  {| name := NaN;
     nombre_entidad := NaN;
     nombre_municipio := NaN;
     nombre_localidad := NaN;
     nombre_de_centro_de_trabajo := NaN;
     geometry := juchitan |}.

(** A record whose state is the empty text. *)
Definition unnamed_state : school :=
  {| name := Str "00XXX0000X";
     nombre_entidad := Str EmptyString;
     nombre_municipio := Str "Sin municipio";
     nombre_localidad := NaN;
     nombre_de_centro_de_trabajo := NaN;
     geometry := juchitan |}.

(** A table of 250 rows, each row its own position. *)
Definition rows_0_to_249 : list Z := map Z.of_nat (seq 0 250).


(* ================================================================== *)
(** * Properties *)
(* ================================================================== *)

(** ** Pagination *)

Section Pagination.

Context {A : Type}.
Implicit Types (R : list A) (p n k : Z).

Lemma len_nonneg R : 0 <= len R.
Proof. unfold len. lia. Qed.

(** Line 314 counts the pages by a floor division; for a table with at
    least one row that is the ceiling of [len R / p]. *)
Lemma floor_to_ceiling (m p : Z) :
  0 < p -> (m - 1) / p + 1 = - ((- m) / p).
Proof.
  intros Hp.
  pose proof (Z.div_mod (m - 1) p ltac:(lia)) as E.
  pose proof (Z.mod_pos_bound (m - 1) p Hp) as B.
  set (q := (m - 1) / p) in *.
  assert (- q - 1 = (- m) / p) as <-; [| ring].
  apply (Z.div_unique (- m) p (- q - 1) (p - 1 - (m - 1) mod p)); lia.
Qed.

Lemma ceiling_of_quotient (m p : Z) :
  0 < p -> Qceiling (inject_Z m / inject_Z p) = - ((- m) / p).
Proof.
  intros Hp. unfold Qceiling. f_equal.
  rewrite (Zdiv_Qdiv (- m) p).
  apply Qfloor_comp.
  rewrite inject_Z_opp. unfold Qdiv. ring.
Qed.

Lemma total_pages_pos R p : 1 <= total_pages R p.
Proof. unfold total_pages. lia. Qed.

(** The pages cover the table: [len R <= total_pages R p * p]. *)
Lemma total_pages_cover R p : 0 < p -> len R <= total_pages R p * p.
Proof.
  intros Hp. unfold total_pages.
  pose proof (Z.div_mod (len R - 1) p ltac:(lia)).
  pose proof (Z.mod_pos_bound (len R - 1) p Hp).
  nia.
Qed.

(** The last page starts inside the table (or at 0 in an empty one). *)
Lemma last_page_start R p k :
  0 < p -> 1 <= k <= total_pages R p -> 0 <= (k - 1) * p <= len R.
Proof.
  intros Hp [Hk1 Hk2]. unfold total_pages in Hk2.
  pose proof (len_nonneg R).
  pose proof (Z.div_mod (len R - 1) p ltac:(lia)).
  pose proof (Z.mod_pos_bound (len R - 1) p Hp).
  destruct (Z.eq_dec (len R) 0) as [E | E].
  - rewrite E in *. 
    assert ((0 - 1) / p = -1) as D.
    { symmetry. apply (Z.div_unique (0 - 1) p (-1) (p - 1)); lia. }
    rewrite D in Hk2. nia.
  - nia.
Qed.

Lemma page_in_range R p n :
  1 <= page R p n <= total_pages R p.
Proof.
  unfold page, St.number_input. pose proof (total_pages_pos R p).
  destruct (Z.leb_spec 1 n); destruct (Z.leb_spec n (total_pages R p));
    simpl; lia.
Qed.

Lemma page_as_asked R p n :
  page R p n = if (1 <=? n) && (n <=? total_pages R p) then n else 1.
Proof. reflexivity. Qed.

Lemma page_in_range_as_asked R p n :
  1 <= n <= total_pages R p -> page R p n = n.
Proof.
  intros H. rewrite page_as_asked.
  destruct (Z.leb_spec 1 n); destruct (Z.leb_spec n (total_pages R p));
    simpl; lia.
Qed.

(** [iloc] between bounds that lie in the table is the plain slice. *)
Lemma iloc_in_bounds R (a b : Z) :
  0 <= a <= b -> b <= len R ->
  Pd.iloc R a b = firstn (Z.to_nat (b - a)) (skipn (Z.to_nat a) R).
Proof.
  intros Ha Hb. unfold Pd.iloc, Pd.slice_bound.
  destruct (Z.ltb_spec a 0); [lia |].
  destruct (Z.ltb_spec b 0); [lia |].
  rewrite !Z.min_l by lia. reflexivity.
Qed.

(** Page [k >= 1], whether it exists or not, is the chunk of [p] rows
    that starts at row [(k - 1) * p]. *)
Lemma page_rows_chunk R p k :
  0 < p -> 1 <= k ->
  page_rows R p k = firstn (Z.to_nat p) (skipn (Z.to_nat ((k - 1) * p)) R).
Proof.
  intros Hp Hk. unfold page_rows, Pd.iloc, Pd.slice_bound.
  pose proof (len_nonneg R) as Hl.
  set (s := (k - 1) * p).
  assert (0 <= s) as Hs by (unfold s; nia).
  destruct (Z.ltb_spec s 0); [lia |].
  destruct (Z.ltb_spec (Z.min (s + p) (len R)) 0); [lia |].
  destruct (Z_le_gt_dec s (len R)) as [Hin | Hout].
  - rewrite (Z.min_l s) by lia.
    rewrite (Z.min_l (Z.min (s + p) (len R))) by lia.
    assert (List.length (skipn (Z.to_nat s) R) = Z.to_nat (len R - s)) as Hlen.
    { rewrite length_skipn. unfold len in *. lia. }
    destruct (Z_le_gt_dec (s + p) (len R)).
    + rewrite Z.min_l by lia. f_equal. lia.
    + rewrite Z.min_r by lia.
      rewrite !firstn_all2; auto; rewrite Hlen; lia.
  - rewrite (Z.min_r s) by lia.
    rewrite !Z.min_r by lia.
    rewrite Z.sub_diag. simpl.
    rewrite (skipn_all2 R); [now rewrite firstn_nil |].
    unfold len in *. lia.
Qed.

(** Cutting a list into consecutive chunks of [c] elements loses and
    repeats nothing. *)
Lemma concat_chunks (c : nat) :
  (0 < c)%nat ->
  forall (m : nat) (l : list A),
    (List.length l <= m * c)%nat ->
    List.concat (map (fun j => firstn c (skipn (j * c) l)) (seq 0 m)) = l.
Proof.
  intros Hc. induction m as [| m IH]; intros l Hl.
  - destruct l; [reflexivity | simpl in Hl; lia].
  - change (seq 0 (S m)) with (0%nat :: seq 1 m).
    rewrite <- seq_shift, map_cons, map_map, concat_cons.
    etransitivity; [| apply (firstn_skipn c l)].
    f_equal.
    rewrite <- (IH (skipn c l)) at 1.
    + f_equal. apply map_ext. intros j.
      rewrite skipn_skipn. do 2 f_equal. lia.
    + rewrite length_skipn. lia.
Qed.

End Pagination.

Lemma rows_value_pos (o : rows_option) : 0 < rows_value o.
Proof. destruct o; reflexivity. Qed.

(** C3. For every result set R and allowed page size p, the page count of
    line 314 is max(1, ceil(len(R) / p)); an empty result set has one
    page, and 250 rows at 100 rows per page make 3 pages. *)
Theorem total_pages_is_ceiling :
  forall (A : Type) (R : list A) (p : rows_option),
    total_pages R (rows_value p)
      = Z.max 1 (Qceiling (inject_Z (len R) / inject_Z (rows_value p)))
    /\ total_pages (@nil A) (rows_value p) = 1
    /\ (len R = 250 -> total_pages R (rows_value Rows100) = 3).
Proof.
  intros A R p. pose proof (rows_value_pos p) as Hp. repeat split.
  - unfold total_pages.
    rewrite ceiling_of_quotient, floor_to_ceiling by assumption.
    reflexivity.
  - destruct p; reflexivity.
  - intros E. unfold total_pages. rewrite E. reflexivity.
Qed.

Lemma total_pages_is_ceiling_witness :
  len (repeat tt 250) = 250
  /\ total_pages (repeat tt 250) (rows_value Rows100) = 3.
Proof.
  split; [reflexivity |].
  apply (total_pages_is_ceiling unit (repeat tt 250) Rows100). reflexivity.
Defined.

(** C4, as the code has it. For every result set R, allowed page size p
    and requested page number n, the page number used lies in
    [1, totalPages]: it is n when n lies in that range, and the default of
    the page input, 1, when it does not (no request fails, none is brought
    to the nearest bound); the rows shown are exactly the slice
    [(page-1)*p, min(page*p, len(R))) of R, in the order of R. *)
Theorem paginated_df_is_page_slice :
  forall (A : Type) (R : list A) (p : rows_option) (n : Z),
    let rows := rows_value p in
    let total := total_pages R rows in
    let k := page R rows n in
    let start := (k - 1) * rows in
    let stop := Z.min (k * rows) (len R) in
    1 <= k <= total
    /\ k = (if (1 <=? n) && (n <=? total) then n else 1)
    /\ 0 <= start <= stop
    /\ stop <= len R
    /\ paginated_df R rows n
       = firstn (Z.to_nat (stop - start)) (skipn (Z.to_nat start) R).
Proof.
  intros A R p n rows total k start stop.
  pose proof (rows_value_pos p) as Hp. fold rows in Hp.
  pose proof (page_in_range R rows n) as Hk. fold k total in Hk.
  pose proof (last_page_start R rows k Hp Hk) as Hs. fold start in Hs.
  assert (0 <= start <= stop) as Hss by (unfold stop, start in *; lia).
  repeat split; try lia.
  - unfold paginated_df, page_rows. fold k start.
    replace (start + rows) with (k * rows) by (unfold start; ring).
    fold stop. apply iloc_in_bounds; unfold stop in *; lia.
Qed.

(** C4 fails as stated: with 250 rows at 100 rows per page there are 3
    pages; asked for page 5, the script is handed page 1 and shows rows 0
    to 99, not page 3 with rows 200 to 249. *)
Lemma page_five_of_three_is_page_one :
  len rows_0_to_249 = 250
  /\ total_pages rows_0_to_249 (rows_value Rows100) = 3
  /\ page rows_0_to_249 (rows_value Rows100) 5 = 1
  /\ paginated_df rows_0_to_249 (rows_value Rows100) 5
     = map Z.of_nat (seq 0 100)
  /\ paginated_df rows_0_to_249 (rows_value Rows100) 5
     <> map Z.of_nat (seq 200 50).
Proof.
  repeat split. intros H. vm_compute in H. discriminate H.
Qed.

(** C5. For every result set R and allowed page size p, the pages
    1 .. totalPages, put one after the other, are R: same records, same
    order, none twice and none missing. *)
Theorem pages_reconstruct_table :
  forall (A : Type) (R : list A) (p : rows_option),
    let rows := rows_value p in
    List.concat
      (map (fun n => paginated_df R rows (Z.of_nat n))
           (seq 1 (Z.to_nat (total_pages R rows))))
    = R.
Proof.
  intros A R p rows.
  pose proof (rows_value_pos p) as Hp. fold rows in Hp.
  pose proof (total_pages_pos R rows) as Ht.
  pose proof (total_pages_cover R rows Hp) as Hc.
  set (m := Z.to_nat (total_pages R rows)) in *.
  rewrite <- seq_shift, map_map.
  etransitivity;
    [| apply (concat_chunks (Z.to_nat rows) ltac:(lia) m R); unfold len in Hc; nia].
  - f_equal. apply map_ext_in. intros j Hj. apply in_seq in Hj.
    unfold paginated_df.
    assert (page R rows (Z.of_nat (S j)) = Z.of_nat (S j)) as ->.
    { apply page_in_range_as_asked. lia. }
    rewrite page_rows_chunk by lia.
    do 2 f_equal. lia.
Qed.

(** ** Search *)

Section Search.









End Search.





(** ** The sidebar *)

Section Sidebar.

Lemma In_insert (a s : string) (l : list string) :
  In a (Py.insert s l) <-> a = s \/ In a l.
Proof.
  induction l as [| t l IH]; simpl.
  - intuition.
  - destruct (String.leb s t); simpl; [intuition |].
    rewrite IH. intuition.
Qed.

Lemma In_sorted (a : string) (l : list string) :
  In a (Py.sorted l) <-> In a l.
Proof.
  induction l as [| s l IH]; simpl; [tauto |].
  rewrite In_insert, IH. intuition.
Qed.

Lemma existsb_eqb_In (v : string) (seen : list string) :
  existsb (String.eqb v) seen = true <-> In v seen.
Proof.
  rewrite existsb_exists. split.
  - intros [w [Hw E]]. apply String.eqb_eq in E. now subst.
  - intros H. exists v. split; [exact H | apply String.eqb_refl].
Qed.

Lemma In_unique_onto (a : string) (l seen : list string) :
  In a (Pd.unique_onto seen l) <-> In a l /\ ~ In a seen.
Proof.
  revert seen. induction l as [| v l IH]; intros seen; simpl; [tauto |].
  destruct (existsb (String.eqb v) seen) eqn:E.
  - apply existsb_eqb_In in E. rewrite IH.
    split; [tauto |]. intros [[-> | H] Hn]; tauto.
  - assert (~ In v seen) as Hv.
    { intros H. apply existsb_eqb_In in H. congruence. }
    simpl. rewrite IH. simpl.
    destruct (string_dec v a) as [-> | Hne]; [tauto |].
    tauto.
Qed.

Lemma In_unique (a : string) (l : list string) :
  In a (Pd.unique l) <-> In a l.
Proof. unfold Pd.unique. rewrite In_unique_onto. simpl. tauto. Qed.

Lemma NoDup_unique_onto (l seen : list string) :
  NoDup (Pd.unique_onto seen l).
Proof.
  revert seen. induction l as [| v l IH]; intros seen; simpl.
  - constructor.
  - destruct (existsb (String.eqb v) seen); [apply IH |].
    constructor; [| apply IH].
    rewrite In_unique_onto. simpl. tauto.
Qed.

Lemma NoDup_insert (s : string) (l : list string) :
  ~ In s l -> NoDup l -> NoDup (Py.insert s l).
Proof.
  induction l as [| t l IH]; simpl; intros Hs Hl.
  - constructor; [tauto | constructor].
  - destruct (String.leb s t).
    + constructor; [simpl; tauto | exact Hl].
    + inversion Hl as [| ? ? Ht Hl']; subst.
      constructor; [| apply IH; tauto].
      rewrite In_insert. intros [-> | H]; tauto.
Qed.

Lemma NoDup_sorted (l : list string) : NoDup l -> NoDup (Py.sorted l).
Proof.
  induction l as [| s l IH]; simpl; intros H; [constructor |].
  inversion H; subst.
  apply NoDup_insert; [rewrite In_sorted; assumption | auto].
Qed.

Lemma In_dropna (v : string) (cells : list cell) :
  In v (Pd.dropna cells) <-> In (Str v) cells.
Proof.
  induction cells as [| c cells IH]; simpl; [tauto |].
  destruct c; simpl; rewrite IH.
  - split; [intros [-> | H]; tauto |].
    intros [E | H]; [injection E; tauto | tauto].
  - split; [tauto | intros [E | H]; [discriminate | tauto]].
  - split; [tauto | intros [E | H]; [discriminate | tauto]].
Qed.

(** The options of the state selectbox are the state values of the
    dataset, each once. *)
Lemma In_departamentos (gdf : list school) (s : string) :
  In s (departamentos gdf)
  <-> exists r, In r gdf /\ nombre_entidad r = Str s.
Proof.
  unfold departamentos.
  rewrite In_sorted, In_unique, In_dropna, in_map_iff.
  split; intros [r H]; exists r; tauto.
Qed.


(** Line 241, on its own: the records of the state, all of them. *)
Lemma In_rows_of_state (gdf : list school) (s : string) (r : school) :
  In r (rows_of_state gdf s) <-> In r gdf /\ nombre_entidad r = Str s.
Proof.
  unfold rows_of_state. rewrite filter_In. simpl.
  destruct (nombre_entidad r) as [v | |]; simpl.
  - rewrite String.eqb_eq. split; intros [H E]; split; congruence.
  - split; intros [H E]; discriminate.
  - split; intros [H E]; discriminate.
Qed.

(** The right operand of line 233, on its own: the municipality values
    of the records of the state, each once. *)
Lemma In_municipio_values (gdf : list school) (s m : string) :
  In m (municipio_values gdf s)
  <-> exists r, In r gdf /\ nombre_entidad r = Str s
                /\ nombre_municipio r = Str m.
Proof.
  unfold municipio_values.
  rewrite In_sorted, In_unique, In_dropna, in_map_iff.
  split.
  - intros [r [E H]]. apply In_rows_of_state in H. exists r. tauto.
  - intros [r [H [Es Em]]]. exists r. split; [exact Em |].
    apply In_rows_of_state. tauto.
Qed.

Lemma truthy_nonempty (s : string) :
  Py.truthy (Some s) = true <-> s <> EmptyString.
Proof.
  simpl. rewrite negb_true_iff. apply String.eqb_neq.
Qed.


End Sidebar.

(** C6, on the code. Once a state (a non-empty text) is selected, the
    sidebar raises [TypeError] at line 233, before the filter of line 241
    is reached: no result set is returned, and the run stops there. *)
Theorem selecting_a_state_raises :
  forall (gdf : list school) (ui : widgets) (s : string),
    admin1 gdf ui = Some s ->
    s <> EmptyString ->
    sidebar_filters gdf ui = Raise TypeError
    /\ forall cache, script gdf ui cache = (Raise TypeError, cache).
Proof.
  intros gdf ui s Hsel Hs.
  assert (sidebar_filters gdf ui = Raise TypeError) as H.
  { unfold sidebar_filters, chosen. rewrite Hsel.
    apply truthy_nonempty in Hs. rewrite Hs. reflexivity. }
  split; [exact H |].
  intros cache. unfold script. now rewrite H.
Qed.

Lemma selecting_a_state_raises_witness :
  sidebar_filters [primaria; secundaria] defaults = Raise TypeError
  /\ forall cache,
       script [primaria; secundaria] defaults cache = (Raise TypeError, cache).
Proof.
  apply (selecting_a_state_raises [primaria; secundaria] defaults "Oaxaca").
  - reflexivity.
  - discriminate.
Defined.

(** C7, on the code. Line 233 adds a [str] and a [list]: whatever the
    dataset and the selected state, computing the municipality options
    raises [TypeError]. *)
Theorem municipios_raises :
  forall (gdf : list school) (admin1 : string),
    municipios gdf admin1 = Raise TypeError.
Proof. intros gdf s. reflexivity. Qed.


(** ** The cap of the map *)

Lemma limit_points_firstn (found : list school) :
  snd (limit_points found) = firstn (Z.to_nat 10000) found.
Proof.
  unfold limit_points. rewrite Z.gtb_ltb.
  destruct (Z.ltb_spec 10000 (len found)) as [Hbig | Hsmall]; simpl snd.
  - reflexivity.
  - symmetry. apply firstn_all2. unfold len in Hsmall. lia.
Qed.

Lemma len_select_columns (df : list school) : len (select_columns df) = len df.
Proof. unfold len, select_columns. now rewrite length_map. Qed.


(** ** The empty result set *)

Lemma paginated_df_nil {A} (rows typed : Z) :
  @paginated_df A [] rows typed = [].
Proof.
  unfold paginated_df, page_rows, Pd.iloc.
  now rewrite skipn_nil, firstn_nil.
Qed.

Lemma header_needs_no_quoting (l : language) :
  Pd.csv_line (header l) = String.concat "," (header l) ++ Pd.linesep.
Proof. destruct l; reflexivity. Qed.

(** C8. When the filtered result set is empty the run does not fail,
    whatever the widgets hold: the map is asked for at the fixed centre
    (23.6345, -102.5528), the table and the page have no row, there is one
    page, and both exports are the header line alone. A run on an empty
    dataset is such a run. *)
Theorem empty_result_set_is_not_an_error :
  forall (ui : widgets) (cache : map_cache),
    let label := TRANSLATIONS (lang ui) Key.click_to_copy in
    let shown :=
      create_map [] (236345 # 10000) (- 1025528 # 10000) label cache in
    let header_line := String.concat "," (header (lang ui)) ++ Pd.linesep in
    render [] ui cache
    = (Ok {| points_on_map := 0;
             performance_warning := false;
             map_info := 0;
             shown_map := fst shown;
             total_records := 0;
             table_df := [];
             shown_total_pages := 1;
             shown_page := 1;
             shown_rows := [];
             csv_filtered := header_line;
             csv_page := header_line |},
       snd shown)
    /\ script [] ui cache = render [] ui cache.
Proof.
  intros ui cache label shown header_line.
  split;
    [| unfold script, sidebar_filters, admin1, St.selectbox;
       now destruct (state_choice ui)].
  unfold render.
  change (limit_points []) with (false, @nil school). cbv beta iota.
  change (center []) with (236345 # 10000, - 1025528 # 10000)%Q.
  cbv beta iota. fold label. fold shown. destruct shown as [m cache'].
  change (select_columns []) with (@nil table_row).
  assert (search [] (search_term ui) = Ok []) as ->.
  { unfold search. now destruct (String.eqb (search_term ui) EmptyString). }
  cbn [Py.bind fst snd].
  rewrite paginated_df_nil.
  assert (total_pages (@nil table_row) (rows_value (rows_per_page ui)) = 1) as Ht
    by (destruct (rows_per_page ui); reflexivity).
  assert (page (@nil table_row) (rows_value (rows_per_page ui)) (page_typed ui) = 1)
    as Hp
    by (pose proof (page_in_range (@nil table_row)
                      (rows_value (rows_per_page ui)) (page_typed ui));
        lia).
  rewrite Ht, Hp.
  unfold Pd.to_csv, header_line. rewrite header_needs_no_quoting.
  destruct (lang ui); reflexivity.
Qed.

(** ** The map cache *)

Lemma map_key_eqb_refl (k : map_key) : map_key_eqb k k = true.
Proof.
  destruct k as [[lat lon] text]. simpl.
  now rewrite !Qeq_bool_refl, String.eqb_refl.
Qed.

(** C10. The key of the map cache leaves the records out: a second call
    of [create_map] with the same centre and label returns the map of the
    first call and leaves the cache as it was, whatever records it is
    given; so the map returned for the records of one school can be the
    map drawn for another. *)
Theorem create_map_is_keyed_without_the_records :
  (forall (gdf1 gdf2 : list school) (lat lon : Q) (text : string)
          (cache : map_cache),
      let first := create_map gdf1 lat lon text cache in
      let second := create_map gdf2 lat lon text (snd first) in
      second = first)
  /\ (let lat := fst (center [primaria]) in
      let lon := snd (center [primaria]) in
      let text := TRANSLATIONS es Key.click_to_copy in
      center [secundaria] = center [primaria]
      /\ create_map_body [secundaria] lat lon text
         <> create_map_body [primaria] lat lon text
      /\ fst (create_map [secundaria] lat lon text
                (snd (create_map [primaria] lat lon text [])))
         = create_map_body [primaria] lat lon text).
Proof.
  split.
  - intros gdf1 gdf2 lat lon text cache. unfold create_map, St.cached.
    destruct (St.lookup map_key_eqb (lat, lon, text) cache) as [m |] eqn:E.
    + cbn [snd]. now rewrite E.
    + cbn [snd]. cbn [St.lookup]. now rewrite map_key_eqb_refl.
  - repeat split. discriminate.
Qed.

(** ** The order of the selectbox options *)

Section Order.

Lemma ascii_compare_refl (c : ascii) : Ascii.compare c c = Eq.
Proof. unfold Ascii.compare. apply N.compare_refl. Qed.

Lemma ascii_compare_lt_trans (a b c : ascii) :
  Ascii.compare a b = Lt -> Ascii.compare b c = Lt -> Ascii.compare a c = Lt.
Proof.
  unfold Ascii.compare. rewrite !N.compare_lt_iff. apply N.lt_trans.
Qed.

Lemma string_compare_lt_trans (s t u : string) :
  String.compare s t = Lt -> String.compare t u = Lt -> String.compare s u = Lt.
Proof.
  revert t u. induction s as [| a s IH]; intros [| b t] [| c u]; simpl;
    try discriminate; try reflexivity.
  destruct (Ascii.compare a b) eqn:Eab; try discriminate;
    destruct (Ascii.compare b c) eqn:Ebc; try discriminate; intros H1 H2.
  - apply Ascii.compare_eq_iff in Eab, Ebc. subst.
    rewrite ascii_compare_refl. eauto.
  - apply Ascii.compare_eq_iff in Eab. subst. now rewrite Ebc.
  - apply Ascii.compare_eq_iff in Ebc. subst. now rewrite Eab.
  - now rewrite (ascii_compare_lt_trans a b c).
Qed.

Lemma before_trans (s t u : string) : before s t -> before t u -> before s u.
Proof.
  unfold before, String.ltb. intros H1 H2.
  destruct (String.compare s t) eqn:E1; try discriminate.
  destruct (String.compare t u) eqn:E2; try discriminate.
  now rewrite (string_compare_lt_trans s t u).
Qed.

Lemma leb_distinct_before (s t : string) :
  String.leb s t = true -> s <> t -> before s t.
Proof.
  unfold before, String.leb, String.ltb. intros H Hne.
  destruct (String.compare s t) eqn:E; try discriminate; [| reflexivity].
  apply String.compare_eq_iff in E. contradiction.
Qed.

Lemma HdRel_insert (a s : string) (l : list string) :
  String.leb a s = true ->
  HdRel (fun u v => String.leb u v = true) a l ->
  HdRel (fun u v => String.leb u v = true) a (Py.insert s l).
Proof.
  intros Has Hl. destruct l as [| t l]; simpl.
  - now constructor.
  - destruct (String.leb s t); constructor; [assumption |].
    now inversion Hl.
Qed.

Lemma Sorted_insert (s : string) (l : list string) :
  Sorted (fun u v => String.leb u v = true) l ->
  Sorted (fun u v => String.leb u v = true) (Py.insert s l).
Proof.
  induction l as [| t l IH]; simpl; intros Hl.
  - repeat constructor.
  - destruct (String.leb s t) eqn:E.
    + constructor; [assumption | now constructor].
    + inversion Hl as [| ? ? Hl' Hhd]; subst.
      constructor; [now apply IH |].
      apply HdRel_insert; [| assumption].
      destruct (String.leb_total s t) as [H | H]; congruence.
Qed.

Lemma Sorted_sorted (l : list string) :
  Sorted (fun u v => String.leb u v = true) (Py.sorted l).
Proof.
  induction l as [| s l IH]; simpl; [constructor | now apply Sorted_insert].
Qed.

(** A list in ascending order that holds no value twice is strictly
    increasing, every element before all the later ones. *)
Lemma increasing (l : list string) :
  Sorted (fun u v => String.leb u v = true) l -> NoDup l ->
  StronglySorted before l.
Proof.
  intros Hs Hn. apply Sorted_StronglySorted.
  - intros s t u. apply before_trans.
  - induction Hs as [| a l Hl IH Hhd]; constructor.
    + apply IH. now inversion Hn.
    + inversion Hn as [| ? ? Ha _]; subst.
      destruct Hhd as [| b l Hab]; constructor.
      apply leb_distinct_before; [assumption |].
      intros ->. apply Ha. now left.
Qed.

Lemma sorted_unique_increasing (l : list string) :
  StronglySorted before (Py.sorted (Pd.unique l)).
Proof.
  apply increasing; [apply Sorted_sorted |].
  apply NoDup_sorted, NoDup_unique_onto.
Qed.

End Order.

(** X1. The options of the state selectbox (line 229) and the municipality
    values that line 233 sorts are strictly increasing in the order of
    [sorted]: every option comes before all the later ones, so no value is
    offered twice. *)
Theorem options_strictly_increasing :
  forall (gdf : list school) (admin1 : string),
    StronglySorted before (departamentos gdf)
    /\ StronglySorted before (municipio_values gdf admin1).
Proof.
  intros gdf s. split; apply sorted_unique_increasing.
Qed.

(** ** The two filters of lines 237 to 241 *)

Lemma subseq_filter {A} (f : A -> bool) (l : list A) : subseq (filter f l) l.
Proof.
  induction l as [| a l IH]; simpl; [constructor |].
  destruct (f a); now constructor.
Qed.

Lemma subseq_length {A} (l m : list A) :
  subseq l m -> (List.length l <= List.length m)%nat.
Proof. induction 1; simpl; lia. Qed.

Lemma filter_filter {A} (f g : A -> bool) (l : list A) :
  filter f (filter g l) = filter (fun a => f a && g a) l.
Proof.
  induction l as [| a l IH]; simpl; [reflexivity |].
  destruct (g a); simpl; [destruct (f a); simpl; now rewrite IH |].
  rewrite andb_false_r. exact IH.
Qed.

Lemma eq_value_Str (c : cell) (v : string) :
  Pd.eq_value c v = true <-> c = Str v.
Proof.
  destruct c as [s | |]; simpl.
  - rewrite String.eqb_eq. split; congruence.
  - split; discriminate.
  - split; discriminate.
Qed.

(** X2. The filter on state and municipality (lines 237 to 239) keeps
    exactly the records of the dataset whose state and municipality are
    the two selected texts, in dataset order; it is the filter on the
    state (line 241) followed by a filter on the municipality, so it keeps
    nothing that the state filter drops, and a record whose state or
    municipality is missing is never kept. *)
Theorem municipio_filter_refines_state_filter :
  forall (gdf : list school) (admin1 admin2 : string),
    rows_of_municipio gdf admin1 admin2
    = filter (fun r => Pd.eq_value (col MUNICIPIO_FIELD r) admin2)
        (rows_of_state gdf admin1)
    /\ subseq (rows_of_municipio gdf admin1 admin2) (rows_of_state gdf admin1)
    /\ subseq (rows_of_state gdf admin1) gdf
    /\ forall r, In r (rows_of_municipio gdf admin1 admin2)
                 <-> In r gdf /\ nombre_entidad r = Str admin1
                     /\ nombre_municipio r = Str admin2.
Proof.
  intros gdf s m.
  assert (rows_of_municipio gdf s m
          = filter (fun r => Pd.eq_value (col MUNICIPIO_FIELD r) m)
              (rows_of_state gdf s)) as E.
  { unfold rows_of_municipio, rows_of_state. now rewrite filter_filter. }
  repeat split.
  - exact E.
  - rewrite E. apply subseq_filter.
  - apply subseq_filter.
  - unfold rows_of_municipio in H. apply filter_In in H. tauto.
  - unfold rows_of_municipio in H. apply filter_In in H as [_ H].
    apply andb_true_iff in H as [_ H]. now apply eq_value_Str in H.
  - unfold rows_of_municipio in H. apply filter_In in H as [_ H].
    apply andb_true_iff in H as [H _]. now apply eq_value_Str in H.
  - intros [Hin [Hs Hm]]. unfold rows_of_municipio. apply filter_In.
    split; [assumption |]. apply andb_true_iff.
    split; apply eq_value_Str; assumption.
Qed.

(** X3. Whatever the dataset and the widgets, the sidebar (lines 229 to
    244) ends in one of two ways: it hands on the whole dataset, or it
    raises [TypeError]; it raises exactly when the state selectbox returns
    a non-empty text. No run gets a result set narrowed to a state or a
    municipality. *)
Theorem sidebar_whole_dataset_or_type_error :
  forall (gdf : list school) (ui : widgets),
    (sidebar_filters gdf ui = Raise TypeError
     <-> exists s, admin1 gdf ui = Some s /\ s <> EmptyString)
    /\ (sidebar_filters gdf ui = Ok gdf
        <-> admin1 gdf ui = None \/ admin1 gdf ui = Some EmptyString)
    /\ (sidebar_filters gdf ui = Ok gdf
        \/ sidebar_filters gdf ui = Raise TypeError).
Proof.
  intros gdf ui. unfold sidebar_filters, chosen.
  destruct (admin1 gdf ui) as [s |]; simpl.
  - destruct (String.eqb_spec s EmptyString) as [-> | Hs]; simpl.
    + repeat split; try discriminate; auto.
      intros [s [E Hs]]. congruence.
    + repeat split; try discriminate; auto.
      * intros _. now exists s.
      * intros [E | E]; congruence.
  - repeat split; try discriminate; auto.
    intros [s [E _]]. discriminate.
Qed.

(** ** The texts of the markers *)

Section Escaping.

Lemma append_empty_r (s : string) : s ++ EmptyString = s.
Proof. induction s as [| c s IH]; simpl; [reflexivity | now rewrite IH]. Qed.

Lemma append_assoc (s t u : string) : (s ++ t) ++ u = s ++ (t ++ u).
Proof. induction s as [| c s IH]; simpl; [reflexivity | now rewrite IH]. Qed.

Lemma concat_empty_cons (s : string) (l : list string) :
  String.concat EmptyString (s :: l) = s ++ String.concat EmptyString l.
Proof.
  destruct l as [| t l]; simpl; [now rewrite append_empty_r | reflexivity].
Qed.

Lemma concat_empty_app (l m : list string) :
  String.concat EmptyString (l ++ m)
  = String.concat EmptyString l ++ String.concat EmptyString m.
Proof.
  induction l as [| s l IH]; [reflexivity |].
  rewrite <- app_comm_cons, !concat_empty_cons, IH. now rewrite append_assoc.
Qed.

Lemma characters_append (s t : string) :
  characters (s ++ t) = (characters s ++ characters t)%list.
Proof.
  unfold characters. induction s as [| c s IH]; simpl; [reflexivity |].
  now rewrite IH.
Qed.

Lemma escape_char_free_of_markup (c : ascii) :
  free_of_markup (Py.escape_char c).
Proof.
  unfold free_of_markup.
  destruct c as [[] [] [] [] [] [] [] []]; vm_compute; repeat constructor.
Qed.

Lemma escape_cons (c : ascii) (s : string) :
  Py.escape (String c s) = Py.escape_char c ++ Py.escape s.
Proof. unfold Py.escape. simpl map. apply concat_empty_cons. Qed.

Lemma escape_free_of_markup (s : string) : free_of_markup (Py.escape s).
Proof.
  induction s as [| c s IH].
  - constructor.
  - rewrite escape_cons. unfold free_of_markup.
    rewrite characters_append. apply Forall_app.
    split; [apply escape_char_free_of_markup | exact IH].
Qed.

Lemma escape_char_ordinary (c : ascii) :
  html_special c = false -> Py.escape_char c = String c EmptyString.
Proof.
  unfold html_special, markup, Py.escape_char. intros H.
  apply orb_false_iff in H as [Hamp H].
  apply orb_false_iff in H as [H Hapos].
  apply orb_false_iff in H as [H Hquote].
  apply orb_false_iff in H as [Hlt Hgt].
  now rewrite Hamp, Hlt, Hgt, Hquote, Hapos.
Qed.

End Escaping.

(** X4. In every map that [create_map] draws (lines 165 to 203) there is
    one marker per record, and the code and the school name that it puts
    into the popup and the tooltip hold none of the characters
    [<], [>], the double quote and the apostrophe, whatever the record
    holds. *)
Theorem marker_texts_are_escaped :
  forall (gdf : list school) (lat lon : Q) (text : string),
    List.length (cluster (create_map_body gdf lat lon text)) = List.length gdf
    /\ Forall (fun m => free_of_markup (popup_code m)
                        /\ free_of_markup (popup_school_name m)
                        /\ free_of_markup (tooltip m))
              (cluster (create_map_body gdf lat lon text)).
Proof.
  intros gdf lat lon text. simpl. split; [apply length_map |].
  apply Forall_map, Forall_forall. intros r _. simpl.
  repeat split; apply escape_free_of_markup.
Qed.

(** X5. [html.escape] (lines 173 and 174) leaves a text as it is when the
    text holds none of the five characters it rewrites: a code or a name
    made of letters, digits and spaces is shown unchanged. *)
Theorem escape_keeps_ordinary_text :
  forall s : string,
    (forall c, In c (characters s) -> html_special c = false) ->
    Py.escape s = s.
Proof.
  induction s as [| c s IH]; intros H; [reflexivity |].
  rewrite escape_cons, escape_char_ordinary by (apply H; now left).
  simpl. f_equal. apply IH. intros d Hd. apply H. now right.
Qed.

Lemma escape_keeps_ordinary_text_witness :
  Py.escape "20DPR0001A" = "20DPR0001A".
Proof.
  apply (escape_keeps_ordinary_text "20DPR0001A").
  intros c Hc. simpl in Hc.
  repeat (destruct Hc as [<- | Hc]; [reflexivity |]). destruct Hc.
Defined.

(** ** More on the search *)

Section SearchCase.

Lemma lower_idempotent (c : ascii) : Pd.lower (Pd.lower c) = Pd.lower c.
Proof. destruct c as [[] [] [] [] [] [] [] []]; reflexivity. Qed.

Lemma re_special_lower (c : ascii) :
  Pd.re_special (Pd.lower c) = Pd.re_special c.
Proof. destruct c as [[] [] [] [] [] [] [] []]; reflexivity. Qed.

Lemma dot_lower (c : ascii) :
  Ascii.eqb (Pd.lower c) "." = Ascii.eqb c ".".
Proof. destruct c as [[] [] [] [] [] [] [] []]; reflexivity. Qed.

Lemma re_compile_list_fold (pat : list ascii) :
  Pd.re_compile_list (map Pd.lower pat)
  = (p <- Pd.re_compile_list pat ;; Ok (map fold_atom p)).
Proof.
  induction pat as [| c pat IH]; [reflexivity |].
  simpl. rewrite dot_lower, re_special_lower, IH.
  destruct (Ascii.eqb c ".").
  - now destruct (Pd.re_compile_list pat).
  - destruct (Pd.re_special c); [reflexivity |].
    now destruct (Pd.re_compile_list pat).
Qed.

Lemma match_here_fold (p : list Pd.atom) (s : list ascii) :
  Pd.match_here (map fold_atom p) s = Pd.match_here p s.
Proof.
  revert s. induction p as [| a p IH]; intros s; [reflexivity |].
  destruct a as [d |], s as [| c s]; simpl; try reflexivity.
  - now rewrite lower_idempotent, IH.
  - now rewrite IH.
Qed.

Lemma re_search_fold (p : list Pd.atom) (s : list ascii) :
  Pd.re_search (map fold_atom p) s = Pd.re_search p s.
Proof.
  induction s as [| c s IH]; cbn [Pd.re_search]; rewrite match_here_fold;
    [reflexivity | now rewrite IH].
Qed.

(** What [str.contains] answers depends on the term through its case
    folding only. *)
Lemma str_contains_fold (term text : string) :
  Pd.str_contains term text
  = (p <- Pd.re_compile_list (fold_case term) ;;
     Ok (Pd.re_search p (characters text))).
Proof.
  unfold Pd.str_contains, Pd.re_compile, fold_case.
  rewrite re_compile_list_fold.
  change (list_ascii_of_string term) with (characters term).
  destruct (Pd.re_compile_list (characters term)); simpl;
    [now rewrite re_search_fold | reflexivity | reflexivity].
Qed.

Lemma map_outcome_ext {A B} (f g : A -> outcome B) (l : list A) :
  (forall a, f a = g a) -> map_outcome f l = map_outcome g l.
Proof.
  intros H. induction l as [| a l IH]; simpl; [reflexivity |].
  now rewrite H, IH.
Qed.

Lemma mask_fold (table : list table_row) (t t' : string) :
  fold_case t = fold_case t' -> mask table t = mask table t'.
Proof.
  intros E. unfold mask. f_equal.
  apply map_outcome_ext. intros row. apply map_outcome_ext. intros text.
  now rewrite !str_contains_fold, E.
Qed.

Lemma fold_case_empty (t : string) :
  String.eqb t EmptyString = match fold_case t with [] => true | _ => false end.
Proof. now destruct t. Qed.

Lemma re_compile_list_modelled (pat : list ascii) :
  (forall c, In c pat -> c = "."%char \/ Pd.re_special c = false) ->
  exists p, Pd.re_compile_list pat = Ok p.
Proof.
  induction pat as [| c pat IH]; intros H; [now exists [] |].
  destruct IH as [p Hp]; [intros d Hd; apply H; now right |].
  simpl. rewrite Hp. simpl.
  destruct (Ascii.eqb_spec c ".") as [-> | Hdot]; [now eexists |].
  destruct (H c) as [-> | Hc]; [now left | contradiction |].
  rewrite Hc. now eexists.
Qed.

Lemma map_outcome_ok {A B} (f : A -> outcome B) (l : list A) :
  (forall a, In a l -> exists b, f a = Ok b) ->
  exists bs, map_outcome f l = Ok bs /\ List.length bs = List.length l.
Proof.
  induction l as [| a l IH]; intros H; [now exists [] |].
  destruct (H a) as [b Hb]; [now left |].
  destruct IH as [bs [Hbs Hlen]]; [intros c Hc; apply H; now right |].
  exists (b :: bs). simpl. rewrite Hb, Hbs. simpl. now rewrite Hlen.
Qed.

Lemma search_modelled (table : list table_row) (term : string) :
  modelled term -> exists kept, search table term = Ok kept.
Proof.
  intros Hm. unfold search.
  destruct (String.eqb term EmptyString); simpl; [now eexists |].
  destruct (re_compile_list_modelled (characters term) Hm) as [p Hp].
  unfold mask.
  destruct (map_outcome_ok
              (map_outcome (Pd.str_contains term))
              (map (map Pd.astype_str) table)) as [hits [Hhits _]].
  - intros row _.
    destruct (map_outcome_ok (Pd.str_contains term) row) as [bs [Hbs _]].
    + intros text _. unfold Pd.str_contains, Pd.re_compile.
      change (list_ascii_of_string term) with (characters term).
      rewrite Hp. now eexists.
    + now exists bs.
  - rewrite Hhits. simpl. now eexists.
Qed.

Lemma subseq_nil_l {A} (l : list A) : subseq [] l.
Proof. induction l; now constructor. Qed.

Lemma boolean_index_subseq {A} (df : list A) (m : list bool) :
  subseq (boolean_index df m) df.
Proof.
  unfold boolean_index. revert m.
  induction df as [| a df IH]; intros m; [constructor |].
  destruct m as [| b m]; simpl; [apply subseq_nil_l |].
  destruct b; simpl; constructor; apply IH.
Qed.

Lemma total_pages_monotone {A B} (R : list A) (R' : list B) (p : Z) :
  0 < p -> len R <= len R' -> total_pages R p <= total_pages R' p.
Proof.
  intros Hp Hlen. unfold total_pages.
  pose proof (Z.div_le_mono (len R - 1) (len R' - 1) p Hp ltac:(lia)).
  lia.
Qed.

End SearchCase.

(** X6. The search (line 302, [case=False]) does not tell letter case
    apart: two terms made of ordinary characters and dots that differ in
    the case of their letters only keep the same rows, and the search of
    such a term never fails. *)
Theorem search_ignores_letter_case :
  forall (table : list table_row) (t t' : string),
    modelled t ->
    fold_case t = fold_case t' ->
    search table t = search table t'
    /\ exists kept, search table t = Ok kept.
Proof.
  intros table t t' Hm E. split; [| now apply search_modelled].
  pose proof (mask_fold table t t' E) as Hmask.
  unfold search. rewrite !fold_case_empty, <- E, Hmask.
  now destruct (fold_case t).
Qed.

Lemma search_ignores_letter_case_witness :
  search (select_columns [primaria; blank]) "OAX.c"
  = search (select_columns [primaria; blank]) "oax.C"
  /\ exists kept, search (select_columns [primaria; blank]) "OAX.c" = Ok kept.
Proof.
  apply (search_ignores_letter_case
           (select_columns [primaria; blank]) "OAX.c" "oax.C").
  - intros c Hc. simpl in Hc.
    destruct Hc as [<- | [<- | [<- | [<- | [<- | []]]]]];
      (now left) || (now right).
  - reflexivity.
Defined.

Lemma subseq_refl {A} (l : list A) : subseq l l.
Proof. induction l; now constructor. Qed.

Lemma search_subseq (table kept : list table_row) (term : string) :
  search table term = Ok kept -> subseq kept table.
Proof.
  unfold search. destruct (negb (String.eqb term EmptyString)).
  - destruct (mask table term) as [m | |]; simpl; try discriminate.
    intros H. injection H as <-. apply boolean_index_subseq.
  - intros H. injection H as <-. apply subseq_refl.
Qed.

(** X7. The search (lines 301 to 303) only leaves rows out: the rows it
    keeps are rows of the table in their order, so there are never more
    of them, nor more pages, than before the search. *)
Theorem search_keeps_a_subsequence :
  forall (table kept : list table_row) (term : string),
    search table term = Ok kept ->
    subseq kept table
    /\ len kept <= len table
    /\ forall p : rows_option,
         total_pages kept (rows_value p) <= total_pages table (rows_value p).
Proof.
  intros table kept term H. apply search_subseq in H.
  assert (len kept <= len table) as Hlen
    by (apply subseq_length in H; unfold len; lia).
  repeat split; [assumption | assumption |].
  intros p. apply total_pages_monotone; [apply rows_value_pos | assumption].
Qed.

Lemma search_keeps_a_subsequence_witness :
  subseq (select_columns [primaria]) (select_columns [primaria; blank])
  /\ len (select_columns [primaria]) <= len (select_columns [primaria; blank])
  /\ forall p : rows_option,
       total_pages (select_columns [primaria]) (rows_value p)
       <= total_pages (select_columns [primaria; blank]) (rows_value p).
Proof.
  apply (search_keeps_a_subsequence
           (select_columns [primaria; blank]) (select_columns [primaria]) "oax").
  reflexivity.
Defined.

(** X8. Every page but the last shows exactly [rows_per_page] rows, the
    last one shows the rows that are left (lines 323 to 325): no page
    shows more than [rows_per_page] rows, and a page is empty only when
    the table is. *)
Theorem page_sizes :
  forall (A : Type) (R : list A) (p : rows_option) (n : Z),
    let rows := rows_value p in
    let total := total_pages R rows in
    let k := page R rows n in
    len (paginated_df R rows n)
    = (if k <? total then rows else len R - (total - 1) * rows)
    /\ len (paginated_df R rows n) <= rows
    /\ (len (paginated_df R rows n) = 0 <-> len R = 0).
Proof.
  intros A R p n rows total k.
  pose proof (rows_value_pos p) as Hp. fold rows in Hp.
  pose proof (page_in_range R rows n) as Hk. fold k total in Hk.
  pose proof (last_page_start R rows k Hp Hk) as Hs.
  pose proof (total_pages_cover R rows Hp) as Hc. fold total in Hc.
  pose proof (len_nonneg R) as Hl.
  assert (len (paginated_df R rows n) = Z.min rows (len R - (k - 1) * rows)) as E.
  { unfold paginated_df. fold k. rewrite page_rows_chunk by lia.
    unfold len. rewrite length_firstn, length_skipn. unfold len in *. lia. }
  assert (k < total -> k * rows <= len R - 1) as Hfull.
  { intros Hlt. unfold total, total_pages in Hlt.
    pose proof (Z.div_mod (len R - 1) rows ltac:(lia)).
    pose proof (Z.mod_pos_bound (len R - 1) rows Hp).
    nia. }
  assert (0 < len R -> (total - 1) * rows < len R) as Hlast.
  { intros Hpos. unfold total, total_pages.
    pose proof (Z.div_mod (len R - 1) rows ltac:(lia)).
    pose proof (Z.mod_pos_bound (len R - 1) rows Hp).
    assert (0 <= (len R - 1) / rows) by (apply Z.div_pos; lia).
    nia. }
  rewrite E. destruct (Z.ltb_spec k total) as [Hlt | Hge].
  - specialize (Hfull Hlt). repeat split; nia.
  - assert (k = total) by lia. subst k.
    repeat split; nia.
Qed.

(** ** What a run shows *)

Lemma limit_points_warning (found : list school) :
  fst (limit_points found) = true <-> 10000 < len found.
Proof.
  unfold limit_points. rewrite Z.gtb_ltb.
  destruct (Z.ltb_spec 10000 (len found)); simpl; split;
    try discriminate; try lia; auto.
Qed.

Lemma subseq_firstn_skipn {A} (a b : nat) (l : list A) :
  subseq (firstn a (skipn b l)) l.
Proof.
  revert a b. induction l as [| c l IH]; intros a b.
  - rewrite skipn_nil, firstn_nil. constructor.
  - destruct b as [| b]; simpl.
    + destruct a as [| a]; simpl; [apply subseq_nil_l |].
      apply subseq_keep. apply (IH a 0%nat).
    + apply subseq_skip. apply IH.
Qed.

Lemma paginated_df_subseq {A} (R : list A) (rows typed : Z) :
  subseq (paginated_df R rows typed) R.
Proof. unfold paginated_df, page_rows, Pd.iloc. apply subseq_firstn_skipn. Qed.

(** X9. From the sidebar on (lines 247 to 333), a run whose search term
    is empty or made of ordinary characters and dots never fails, and what
    it shows hangs together: the sidebar count is the number of records
    found, before the cap; the map info and the total of the table are
    that number capped at 10,000; the warning is shown exactly when the
    cap cuts; the table after the search has at most that many rows; the
    page number lies between 1 and the number of pages; and the rows shown
    are rows of the table, in their order. *)
Theorem screen_is_coherent :
  forall (found : list school) (ui : widgets) (cache : map_cache),
    modelled (search_term ui) ->
    exists scr,
      fst (render found ui cache) = Ok scr
      /\ points_on_map scr = len found
      /\ map_info scr = Z.min (len found) 10000
      /\ (performance_warning scr = true <-> 10000 < len found)
      /\ total_records scr = map_info scr
      /\ len (table_df scr) <= total_records scr
      /\ 1 <= shown_page scr <= shown_total_pages scr
      /\ subseq (shown_rows scr) (table_df scr).
Proof.
  intros found ui cache Hm. unfold render.
  pose proof (limit_points_firstn found) as Hcap.
  pose proof (limit_points_warning found) as Hwarn.
  remember (Z.to_nat 10000) as cap eqn:Ecap.
  destruct (limit_points found) as [warned capped].
  simpl in Hcap, Hwarn. subst capped.
  destruct (center (firstn cap found)) as [center_lat center_lon].
  destruct (create_map (firstn cap found) center_lat center_lon _ cache)
    as [m cache'].
  destruct (search_modelled (select_columns (firstn cap found))
              (search_term ui) Hm) as [kept Hkept].
  rewrite Hkept. cbn [Py.bind fst].
  eexists. split; [reflexivity |]. cbn.
  assert (len (firstn cap found) = Z.min (len found) 10000) as Hlen
    by (unfold len; rewrite length_firstn; lia).
  rewrite len_select_columns, Hlen.
  repeat split; try tauto.
  - apply search_subseq, subseq_length in Hkept.
    rewrite <- Hlen, <- len_select_columns. unfold len. lia.
  - apply page_in_range.
  - apply page_in_range.
  - apply paginated_df_subseq.
Qed.

Lemma screen_is_coherent_witness :
  exists scr,
    fst (render [primaria; secundaria] defaults []) = Ok scr
    /\ points_on_map scr = len [primaria; secundaria]
    /\ map_info scr = Z.min (len [primaria; secundaria]) 10000
    /\ (performance_warning scr = true <-> 10000 < len [primaria; secundaria])
    /\ total_records scr = map_info scr
    /\ len (table_df scr) <= total_records scr
    /\ 1 <= shown_page scr <= shown_total_pages scr
    /\ subseq (shown_rows scr) (table_df scr).
Proof.
  apply (screen_is_coherent [primaria; secundaria] defaults []).
  intros c Hc. destruct Hc.
Defined.

(** ** More on the map cache *)

(** X10. After any call of [create_map] (lines 111 and 112) the cache
    holds, under the centre and the label of the call, the very map the
    call returned; the maps kept under other keys are as they were; and a
    call whose key was not in the cache returns the map drawn from the
    records it was given. *)
Theorem create_map_fills_the_cache :
  forall (gdf : list school) (lat lon : Q) (text : string) (cache : map_cache),
    let result := create_map gdf lat lon text cache in
    St.lookup map_key_eqb (lat, lon, text) (snd result) = Some (fst result)
    /\ (forall k, map_key_eqb k (lat, lon, text) = false ->
                  St.lookup map_key_eqb k (snd result)
                  = St.lookup map_key_eqb k cache)
    /\ (St.lookup map_key_eqb (lat, lon, text) cache = None ->
        fst result = create_map_body gdf lat lon text).
Proof.
  intros gdf lat lon text cache. unfold create_map, St.cached.
  destruct (St.lookup map_key_eqb (lat, lon, text) cache) as [m |] eqn:E;
    cbn [fst snd].
  - repeat split; [assumption | discriminate].
  - repeat split.
    + cbn [St.lookup]. now rewrite map_key_eqb_refl.
    + intros k Hk. cbn [St.lookup]. now rewrite Hk.
Qed.

(** ** The two exports *)

Lemma pages_cover {A} (R : list A) (rows : Z) :
  0 < rows ->
  List.concat
    (map (fun n => paginated_df R rows (Z.of_nat n))
         (seq 1 (Z.to_nat (total_pages R rows))))
  = R.
Proof.
  intros Hp.
  pose proof (total_pages_pos R rows) as Ht.
  pose proof (total_pages_cover R rows Hp) as Hc.
  set (m := Z.to_nat (total_pages R rows)) in *.
  rewrite <- seq_shift, map_map.
  etransitivity;
    [| apply (concat_chunks (Z.to_nat rows) ltac:(lia) m R); unfold len in Hc; nia].
  f_equal. apply map_ext_in. intros j Hj. apply in_seq in Hj.
  unfold paginated_df.
  assert (page R rows (Z.of_nat (S j)) = Z.of_nat (S j)) as ->.
  { apply page_in_range_as_asked. lia. }
  rewrite page_rows_chunk by lia.
  do 2 f_equal. lia.
Qed.

Lemma csv_body_app (a b : list table_row) :
  csv_body (a ++ b) = csv_body a ++ csv_body b.
Proof. unfold csv_body. now rewrite map_app, concat_empty_app. Qed.

Lemma csv_body_concat (pages : list (list table_row)) :
  csv_body (List.concat pages) = String.concat EmptyString (map csv_body pages).
Proof.
  induction pages as [| pg pages IH]; [reflexivity |].
  cbn [List.concat map]. now rewrite csv_body_app, IH, concat_empty_cons.
Qed.

(** X11. The export of the whole table (line 339) is the header line
    followed by the rows of the page exports (line 348) for the pages 1 to
    [total_pages], in that order: the page exports, headers apart, put
    end to end, are the full export without its header. *)
Theorem export_is_header_and_page_rows :
  forall (l : language) (R : list table_row) (p : rows_option),
    let rows := rows_value p in
    let pages :=
      map (fun n => paginated_df R rows (Z.of_nat n))
          (seq 1 (Z.to_nat (total_pages R rows))) in
    Pd.to_csv (header l) R
    = Pd.csv_line (header l) ++ String.concat EmptyString (map csv_body pages)
    /\ Forall (fun pg => Pd.to_csv (header l) pg
                         = Pd.csv_line (header l) ++ csv_body pg) pages.
Proof.
  intros l R p rows pages. split.
  - rewrite <- csv_body_concat. unfold pages.
    rewrite (pages_cover R rows (rows_value_pos p)). reflexivity.
  - apply Forall_forall. reflexivity.
Qed.

(** ** The municipality values of a state *)

(** X12. The list that line 233 sorts holds exactly the municipality
    values of the records of the selected state: a text is in it if and
    only if some record of the dataset has that state and that
    municipality; a record with a missing municipality, or of another
    state, adds nothing, and a state without records gives the empty
    list. *)
Theorem municipio_values_of_state :
  forall (gdf : list school) (admin1 : string),
    (forall m, In m (municipio_values gdf admin1)
               <-> exists r, In r gdf /\ nombre_entidad r = Str admin1
                             /\ nombre_municipio r = Str m)
    /\ (rows_of_state gdf admin1 = [] <-> ~ In admin1 (departamentos gdf))
    /\ (rows_of_state gdf admin1 = [] -> municipio_values gdf admin1 = []).
Proof.
  intros gdf s. split; [intros m; apply In_municipio_values |]. split.
  - rewrite In_departamentos. split.
    + intros E [r [Hr Hs]].
      assert (In r (rows_of_state gdf s)) as H by (apply In_rows_of_state; tauto).
      rewrite E in H. destruct H.
    + intros H. destruct (rows_of_state gdf s) as [| r l] eqn:E; [reflexivity |].
      exfalso. apply H. exists r.
      apply In_rows_of_state. rewrite E. now left.
  - intros E. unfold municipio_values. now rewrite E.
Qed.

(** ** The size of the cached maps *)

Lemma lookup_In (k : map_key) (cache : map_cache) (m : folium_map) :
  St.lookup map_key_eqb k cache = Some m -> exists k', In (k', m) cache.
Proof.
  induction cache as [| [k' v] cache IH]; simpl; [discriminate |].
  destruct (map_key_eqb k k').
  - intros H. injection H as ->. exists k'. now left.
  - intros H. destruct (IH H) as [k'' Hin]. exists k''. now right.
Qed.

Lemma create_map_bounded (gdf : list school) (lat lon : Q) (text : string)
    (cache : map_cache) :
  len gdf <= 10000 ->
  bounded_cache cache ->
  len (cluster (fst (create_map gdf lat lon text cache))) <= 10000
  /\ bounded_cache (snd (create_map gdf lat lon text cache)).
Proof.
  intros Hlen Hc. unfold create_map, St.cached.
  destruct (St.lookup map_key_eqb (lat, lon, text) cache) as [m |] eqn:E;
    cbn [fst snd].
  - split; [| assumption].
    apply lookup_In in E as [k' Hin].
    unfold bounded_cache in Hc. rewrite Forall_forall in Hc.
    apply (Hc (k', m) Hin).
  - assert (len (cluster (create_map_body gdf lat lon text)) <= 10000) as Hb.
    { simpl. unfold len in *. now rewrite length_map. }
    split; [assumption |]. constructor; assumption.
Qed.

(** X13. The cap holds over a whole session: if every map in the cache
    has at most 10,000 markers, as in the empty cache of a fresh process,
    then after a run of the script (lines 211 to 354), failed or not,
    every map in the cache still has at most 10,000 markers, and the map
    that a run shows has at most 10,000 markers. *)
Theorem cached_maps_stay_capped :
  forall (gdf : list school) (ui : widgets) (cache : map_cache),
    bounded_cache cache ->
    bounded_cache (snd (script gdf ui cache))
    /\ forall scr, fst (script gdf ui cache) = Ok scr ->
                   len (cluster (shown_map scr)) <= 10000.
Proof.
  intros gdf ui cache Hc. unfold script.
  destruct (sidebar_filters gdf ui) as [found | e |]; cbn [fst snd];
    [| split; [assumption | discriminate] ..].
  unfold render.
  pose proof (limit_points_firstn found) as Hcap.
  remember (Z.to_nat 10000) as cap eqn:Ecap.
  destruct (limit_points found) as [warned capped].
  simpl in Hcap. subst capped.
  assert (len (firstn cap found) <= 10000) as Hlen
    by (unfold len; rewrite length_firstn; lia).
  destruct (center (firstn cap found)) as [center_lat center_lon].
  pose proof (create_map_bounded (firstn cap found) center_lat center_lon
                (TRANSLATIONS (lang ui) Key.click_to_copy) cache Hlen Hc)
    as [Hm Hc'].
  destruct (create_map (firstn cap found) center_lat center_lon _ cache)
    as [m cache'].
  cbn [fst snd] in *. split; [assumption |].
  intros scr.
  destruct (search (select_columns (firstn cap found)) (search_term ui));
    cbn [Py.bind]; try discriminate.
  intros H. injection H as <-. exact Hm.
Qed.

Lemma cached_maps_stay_capped_witness :
  bounded_cache (snd (script [unnamed_state; primaria] defaults []))
  /\ forall scr, fst (script [unnamed_state; primaria] defaults []) = Ok scr ->
                 len (cluster (shown_map scr)) <= 10000.
Proof.
  apply (cached_maps_stay_capped [unnamed_state; primaria] defaults []).
  constructor.
Defined.

(** ** The state selector *)




(** ** The table and the cap *)


